(** * Budget app: ledger bookkeeping and spend chart

    A shallow embedding of [budget.py]: the [Category] class (ledger,
    balance, deposit, withdraw, transfer, string rendering) and the
    spend-chart renderer [create_spend_chart] with its helpers.

    Numbers.  The source types amounts as [Number = Union[int, float]].
    A Python [int] is an unbounded integer and is modelled by [Z].  A
    Python [float] is modelled by the rational number it denotes and
    the arithmetic on it is exact: binary64 rounding, infinities and
    NaN are outside this model.  The tag ([PyInt] or [PyFloat]) is kept
    because the source depends on it: [int + int] stays an [int], [/]
    always gives a [float], and [str] prints the two differently.

    Effects.  A method that mutates [self] returns the new object.
    [transfer] touches two objects that may be the same one, so it runs
    on a store of objects addressed by reference.  A Python exception
    is a [Raise] result. *)

From Stdlib Require Import ZArith QArith Qround Qabs Lia Lqa.
From Stdlib Require Import Ascii String DecimalString SpecFloat.
From stdpp Require Import gmap strings.

Local Open Scope Z_scope.

(** ** Exceptions *)

Inductive PyError : Type :=
| TypeError          (* reduce() of an empty sequence with no initial value *)
| ZeroDivisionError  (* division by zero *)
| IndexError         (* list index out of range *)
| NameError.         (* a reference that designates no object *)

Inductive result (A : Type) : Type :=
| Ok (a : A)
| Raise (e : PyError).

Arguments Ok {A} a.
Arguments Raise {A} e.

Definition bind {A B : Type} (r : result A) (k : A -> result B) : result B :=
  match r with
  | Ok a => k a
  | Raise e => Raise e
  end.

Notation "'let*' x ':=' r 'in' k" := (bind r (fun x => k))
  (at level 10, x pattern, r at level 100, k at level 200).

(** ** Numbers *)

Inductive Number : Type :=
| PyInt (z : Z)
| PyFloat (q : Q).

(** The mathematical value of a number. *)
Definition Nval (n : Number) : Q :=
  match n with
  | PyInt z => inject_Z z
  | PyFloat q => q
  end.

(** [x + y] *)
Definition add (x y : Number) : Number :=
  match x, y with
  | PyInt a, PyInt b => PyInt (a + b)
  | _, _ => PyFloat (Nval x + Nval y)
  end.

(** [x * y] *)
Definition mul (x y : Number) : Number :=
  match x, y with
  | PyInt a, PyInt b => PyInt (a * b)
  | _, _ => PyFloat (Nval x * Nval y)
  end.

(** [x - y] *)
Definition sub (x y : Number) : Number :=
  match x, y with
  | PyInt a, PyInt b => PyInt (a - b)
  | _, _ => PyFloat (Nval x - Nval y)
  end.

(** [x / y]: true division, a float, or [ZeroDivisionError]. *)
Definition truediv (x y : Number) : result Number :=
  if Qeq_bool (Nval y) 0 then Raise ZeroDivisionError
  else Ok (PyFloat (Nval x / Nval y)).

(** [x <= y] and [x < y] *)
Definition num_le (x y : Number) : bool := Qle_bool (Nval x) (Nval y).
Definition num_lt (x y : Number) : bool := negb (Qle_bool (Nval y) (Nval x)).

(** Truncation of a rational towards zero. *)
Definition Qtrunc (q : Q) : Z := Z.quot (Qnum q) (Z.pos (Qden q)).

(** [int(x)] *)
Definition int (x : Number) : Z :=
  match x with
  | PyInt z => z
  | PyFloat q => Qtrunc q
  end.

(** [math.floor(x)] *)
Definition floor (x : Number) : Z :=
  match x with
  | PyInt z => z
  | PyFloat q => Qfloor q
  end.

(** ** [functools.reduce] *)

(** [reduce(f, l)]: a left fold seeded with the first element; an empty
    sequence raises [TypeError]. *)
Definition reduce {A : Type} (f : A -> A -> A) (l : list A) : result A :=
  match l with
  | [] => Raise TypeError
  | x :: xs => Ok (fold_left f xs x)
  end.

(** [reduce(f, l, init)] *)
Definition reduce_init {A B : Type} (f : A -> B -> A) (l : list B) (init : A) : A :=
  fold_left f l init.

(** ** Category *)

(** A ledger entry: the dict [{"amount": a, "description": d}]. *)
Record Entry : Type := mkEntry {
  amount : Number;
  description : string
}.

Record Category : Type := mkCategory {
  category_name : string;
  ledger : list Entry
}.

(** [Category(category_name)] *)
Definition new_category (name : string) : Category :=
  {| category_name := name; ledger := [] |}.

(** [self.ledger.append(e)] *)
Definition ledger_append (self : Category) (e : Entry) : Category :=
  {| category_name := category_name self; ledger := ledger self ++ [e] |}.

Definition get_balance (self : Category) : result Number :=
  reduce add (map amount (ledger self)).

Definition check_funds (self : Category) (amt : Number) : result bool :=
  let* balance := get_balance self in
  Ok (num_le amt balance).

Definition deposit (self : Category) (amt : Number) (descr : string) : Category :=
  ledger_append self {| amount := amt; description := descr |}.

Definition withdraw (self : Category) (amt : Number) (descr : string)
  : result (bool * Category) :=
  let* funds := check_funds self amt in
  if (funds : bool)
  then Ok (true, ledger_append self
                   {| amount := mul amt (PyInt (-1)); description := descr |})
  else Ok (false, self).

(** ** The object store *)

(** Python passes objects by reference.  [transfer] receives a second
    [Category] that may be the receiver itself, so it is modelled on a
    store from references to objects; the methods above act on the
    object found at a reference. *)

Definition transfer (st : gmap nat Category) (self category : nat) (amt : Number)
  : result (bool * gmap nat Category) :=
  match st !! self, st !! category with
  | Some s, Some c =>
      let* r := withdraw s amt ("Transfer to " +:+ category_name c) in
      let st1 := <[self := snd r]> st in
      if fst r then
        match st1 !! self, st1 !! category with
        | Some s1, Some c1 =>
            Ok (true,
                <[category := deposit c1 amt ("Transfer from " +:+ category_name s1)]> st1)
        | _, _ => Raise NameError
        end
      else Ok (false, st1)
  | _, _ => Raise NameError
  end.

(** ** String rendering *)

(** Line feed. *)
Definition LF : ascii := "010"%char.
Definition nl : string := String LF "".

(** [len(s)] *)
Definition len (s : string) : Z := Z.of_nat (String.length s).

(** [c * n] for a one-character string [c]: empty when [n <= 0]. *)
Fixpoint replicate_char (n : nat) (c : ascii) : string :=
  match n with
  | O => ""
  | S n' => String c (replicate_char n' c)
  end.

Definition str_times (c : ascii) (n : Z) : string := replicate_char (Z.to_nat n) c.

(** [str(z)] for an int. *)
Definition str_int (z : Z) : string := NilZero.string_of_int (Z.to_int z).

(** Round to the nearest integer, ties to even. *)
Definition round_half_even (q : Q) : Z :=
  let f := Qfloor q in
  match Qcompare (q - inject_Z f) (1 # 2) with
  | Lt => f
  | Gt => f + 1
  | Eq => if Z.even f then f else f + 1
  end.

(** [f"{x:.2f}"]: sign, integer part, a point and two decimals. *)
Definition format_2f (x : Number) : string :=
  let q := Nval x in
  let cents := round_half_even (Qabs q * 100) in
  let frac := cents mod 100 in
  (if Qle_bool 0 q then "" else "-")
    +:+ str_int (cents / 100) +:+ "."
    +:+ (if frac <? 10 then "0" else "") +:+ str_int frac.

(** [format_header] of [Category.__str__] *)
Definition format_header (name : string) : string :=
  let left_star_multiplier := Qtrunc (inject_Z (30 - len name) / 2) in
  let right_star_multiplier := 30 - len name - left_star_multiplier in
  str_times "*" left_star_multiplier +:+ name +:+ str_times "*" right_star_multiplier.

(** [format_ledger_entry] of [Category.__str__] *)
Definition format_ledger_entry (entry : Entry) : string :=
  let descr := String.substring 0 23 (description entry) in
  let amt := format_2f (amount entry) in
  let space_multiplier := 30 - len amt - len descr in
  descr +:+ str_times " " space_multiplier +:+ amt.

Section Rendering.

(** [str(x)] for a float prints the shortest decimal numeral that
    reads back as the same binary64 value; it is a parameter of the
    exact model. *)
Variable float_repr : Q -> string.

(** [str(x)], as the f-string [f"{x}"] applies it. *)
Definition str (x : Number) : string :=
  match x with
  | PyInt z => str_int z
  | PyFloat q => float_repr q
  end.

(** [format_total] of [Category.__str__]: annotated [amount: str], it
    is called with the balance itself. *)
Definition format_total (amt : Number) : string := "Total: " +:+ str amt.

Definition __str__ (self : Category) : result string :=
  let result0 := format_header (category_name self) +:+ nl in
  let result1 :=
    fold_left (fun acc entry => acc +:+ (format_ledger_entry entry +:+ nl))
              (ledger self) result0 in
  let* balance := get_balance self in
  Ok (result1 +:+ format_total balance).

End Rendering.

(** ** Spend chart *)

(** [[x] * n] for a one-element list: empty when [n <= 0]. *)
Definition times {A : Type} (x : A) (n : Z) : list A := replicate (Z.to_nat n) x.

(** [list(s)] *)
Definition chars (s : string) : list ascii := list_ascii_of_string s.

Definition _calculate_category_withdraw (category : Category) : Number :=
  fold_left
    (fun wd entry =>
       let amt := amount entry in
       if num_lt amt (PyInt 0) then add wd (mul amt (PyInt (-1))) else wd)
    (ledger category) (PyFloat 0).

(** [int(math.floor(value * 0.1) / 0.1)], with [0.1] read as one tenth. *)
Definition _round_down_nearest_ten (value : Z) : Z :=
  Qtrunc (inject_Z (floor (mul (PyInt value) (PyFloat (1 # 10)))) / (1 # 10)).

Definition _resolve_percentage (value total : Number) : result Z :=
  let* ratio := truediv value total in
  let percentage := int (mul ratio (PyInt 100)) in
  Ok (_round_down_nearest_ten percentage).

Definition _format_y_labels (longest_category_name : Z) : list (list ascii) :=
  [ ["1"%char] ++ times " "%char (11 + longest_category_name);
    ["0"; "9"; "8"; "7"; "6"; "5"; "4"; "3"; "2"; "1"; " "; " "]%char
      ++ times " "%char longest_category_name;
    times "0"%char 11 ++ times " "%char (1 + longest_category_name);
    times "|"%char 11 ++ times " "%char (1 + longest_category_name) ].

Definition _format_blank_columm (longest_category_name : Z) : list (list ascii) :=
  [ times " "%char 11 ++ ["-"%char] ++ times " "%char longest_category_name ].

Definition _format_category_column
  (longest_category_name : Z) (name : string) (category_percentage : Z)
  : list (list ascii) :=
  let top_fillers := times " "%char (Qtrunc (10 - inject_Z category_percentage / 10)) in
  let o_fillers := times "o"%char (Qtrunc (inject_Z category_percentage / 10 + 1)) in
  let bottom_fillers := times " "%char (longest_category_name - len name) in
  [ top_fillers ++ o_fillers ++ ["-"%char] ++ chars name ++ bottom_fillers ]
    ++ _format_blank_columm longest_category_name
    ++ _format_blank_columm longest_category_name.

(** [list(map(f, l))] for an [f] that may raise: the first exception
    ends the evaluation. *)
Fixpoint map_result {A B : Type} (f : A -> result B) (l : list A) : result (list B) :=
  match l with
  | [] => Ok []
  | x :: xs =>
      let* y := f x in
      let* ys := map_result f xs in
      Ok (y :: ys)
  end.

(** The 2D list [string_list]: one inner list per chart column. *)
Definition chart_columns (y_length : Z) (categories : list Category)
  (withdraw_percents : list Z) : list (list ascii) :=
  fold_left
    (fun string_list cp =>
       string_list ++ _format_category_column y_length (category_name (fst cp)) (snd cp))
    (zip categories withdraw_percents)
    (_format_y_labels y_length ++ _format_blank_columm y_length).

(** One pass of the inner loop: [string_list[j][i]] for every [j]. *)
Definition chart_row (string_list : list (list ascii)) (i : nat) : result string :=
  fold_left
    (fun acc column =>
       let* row := acc in
       match column !! i with
       | Some c => Ok (row +:+ String c "")
       | None => Raise IndexError
       end)
    string_list (Ok "").

(** The rows the outer loop emits, [i] in [range(y_length + 12)]. *)
Definition chart_rows (string_list : list (list ascii)) (y_length : Z)
  : result (list string) :=
  map_result (chart_row string_list) (seq 0 (Z.to_nat (y_length + 12))).

(** [str.isspace] on one character (code points below 256). *)
Definition is_space (c : ascii) : bool :=
  let n := nat_of_ascii c in
  ((9 <=? n) && (n <=? 13) || (28 <=? n) && (n <=? 32) || (n =? 133) || (n =? 160))%nat.

(** [s.rstrip()] *)
Fixpoint rstrip (s : string) : string :=
  match s with
  | EmptyString => ""
  | String c s' =>
      match rstrip s' with
      | EmptyString => if is_space c then "" else String c ""
      | r => String c r
      end
  end.

Definition chart_title : string := "Percentage spent by category" +:+ nl.

(** Everything [create_spend_chart] computes before it builds the
    output string: [y_length] and the rows of the grid. *)
Definition chart_grid (categories : list Category) : result (Z * list string) :=
  let* y_length := reduce Z.max (map (fun i => len (category_name i)) categories) in
  let category_withdraw := map _calculate_category_withdraw categories in
  let total_withdraw := int (reduce_init add category_withdraw (PyFloat 0)) in
  let* withdraw_percents :=
    map_result (fun value => _resolve_percentage value (PyInt total_withdraw))
               category_withdraw in
  let string_list := chart_columns y_length categories withdraw_percents in
  let* rows := chart_rows string_list y_length in
  Ok (y_length, rows).

(** [ret_val] before the final [rstrip]: the title, then each row
    followed by a line feed. *)
Definition chart_text (rows : list string) : string :=
  fold_left (fun ret_val row => ret_val +:+ row +:+ nl) rows chart_title.

Definition create_spend_chart (categories : list Category) : result string :=
  let* g := chart_grid categories in
  Ok (rstrip (chart_text (snd g)) +:+ "  ").

(** ** The percentage helpers in binary64 *)

(** The model above reads [0.1] as one tenth and divides exactly.  The
    interpreter works in IEEE-754 binary64, where [0.1] is the nearest
    double and every operation rounds to nearest, ties to even.  This
    module evaluates the two percentage helpers that way, on [int]
    arguments, with the reference operations of [SpecFloat]; the
    agreement lemmas below compare it with the exact model. *)
Module B64.

Definition prec : Z := 53.
Definition emax : Z := 1024.

(** [float(z)] *)
Definition of_int (z : Z) : spec_float := binary_normalize prec emax z 0 false.

(** The integer a finite double is made of: sign and mantissa. *)
Definition signed (s : bool) (m : positive) : Z := if s then Z.neg m else Z.pos m.

(** [math.floor(x)] and [int(x)] of a finite double. *)
Definition floor (x : spec_float) : Z :=
  match x with
  | S754_finite s m e =>
      if 0 <=? e then signed s m * 2 ^ e else signed s m / 2 ^ (- e)
  | _ => 0
  end.

Definition int (x : spec_float) : Z :=
  match x with
  | S754_finite s m e =>
      if 0 <=? e then signed s m * 2 ^ e else Z.quot (signed s m) (2 ^ (- e))
  | _ => 0
  end.

(** The literal [0.1]. *)
Definition tenth : spec_float := SFdiv prec emax (of_int 1) (of_int 10).

Definition _round_down_nearest_ten (value : Z) : Z :=
  int (SFdiv prec emax (of_int (floor (SFmul prec emax (of_int value) tenth))) tenth).

(** [_resolve_percentage] on two ints, [total] not 0. *)
Definition _resolve_percentage (value total : Z) : Z :=
  let percentage :=
    int (SFmul prec emax (SFdiv prec emax (of_int value) (of_int total)) (of_int 100)) in
  _round_down_nearest_ten percentage.

End B64.

(** The integers [0, 1, ..., n - 1]. *)
Definition range (n : nat) : list Z := map Z.of_nat (seq 0 n).

(** ** Specification vocabulary *)




(** [s.split("\n")] *)
Fixpoint split_lines (s : string) : list string :=
  match s with
  | EmptyString => [""]
  | String c s' =>
      if Ascii.eqb c LF then "" :: split_lines s'
      else match split_lines s' with
           | l :: ls => String c l :: ls
           | [] => [String c ""]
           end
  end.

(** The final line of a text. *)
Definition last_line (s : string) : string := List.last (split_lines s) "".




(** [total_withdraw] of [create_spend_chart]: the combined withdrawal
    total, truncated to an integer. *)
Definition total_withdraw (categories : list Category) : Z :=
  int (reduce_init add (map _calculate_category_withdraw categories) (PyFloat 0)).

(** [withdraw_percents] of [create_spend_chart]. *)
Definition withdraw_percents (categories : list Category) : result (list Z) :=
  map_result (fun value => _resolve_percentage value (PyInt (total_withdraw categories)))
             (map _calculate_category_withdraw categories).




(** The first five characters of chart row [i]: the y-axis label, the
    axis and a blank for the eleven bar rows, the start of the baseline
    for row 11, blanks below. *)
Definition axis_label (i : nat) : string :=
  nth i ["100| "; " 90| "; " 80| "; " 70| "; " 60| "; " 50| ";
         " 40| "; " 30| "; " 20| "; " 10| "; "  0| "; "    -"] "     ".



(** The text is made of whitespace only. *)
Fixpoint all_space (s : string) : bool :=
  match s with
  | EmptyString => true
  | String c s' => is_space c && all_space s'
  end.

(** ** Example objects *)

(** [food = Category("Food"); food.deposit(1000, "initial deposit")] *)
Definition food : Category :=
  deposit (new_category "Food") (PyInt 1000) "initial deposit".

(** A category whose only entry is a negative deposit:
    [Category("Food"); deposit(-100)]. *)
Definition overdrawn : Category :=
  deposit (new_category "Food") (PyInt (-100)) "".

(** A store with the objects [food] and a fresh ["Clothing"]. *)
Definition two_categories : gmap nat Category :=
  <[1%nat := new_category "Clothing"]> (<[0%nat := food]> ∅).


(** A category with a 33-character name and one deposit of ten
    million under a 23-character description. *)
Definition wide : Category :=
  deposit (new_category "Household repairs and maintenance")
          (PyInt 10000000) "lottery prize, one-off.".

(** [Category("Food")] after [deposit(1.0)] and [withdraw(0.5)]. *)
Definition small_spender : Category :=
  ledger_append (deposit (new_category "Food") (PyFloat 1) "")
                {| amount := mul (PyFloat (1 # 2)) (PyInt (-1)); description := "" |}.

(** [food] after [withdraw(200, "groceries")]. *)
Definition shopper : Category :=
  ledger_append food {| amount := mul (PyInt 200) (PyInt (-1)); description := "groceries" |}.

(** * Properties *)

(** Let [lia] reason about integer division and remainder. *)
Ltac Zify.zify_post_hook ::= Z.to_euclidean_division_equations.

(** ** Numbers *)


Lemma Nval_mul (x y : Number) : (Nval (mul x y) == Nval x * Nval y)%Q.
Proof.
  destruct x as [a|p], y as [b|q]; cbn [Nval mul]; reflexivity.
Qed.

Lemma Nval_negate (x : Number) : (Nval (mul x (PyInt (-1))) == - Nval x)%Q.
Proof. rewrite Nval_mul. simpl. ring. Qed.

Lemma num_le_spec (x y : Number) : num_le x y = true <-> (Nval x <= Nval y)%Q.
Proof. apply Qle_bool_iff. Qed.



(** ** Balance *)



Lemma get_balance_empty (self : Category) :
  ledger self = [] -> get_balance self = Raise TypeError.
Proof. unfold get_balance. intros ->. reflexivity. Qed.


Lemma get_balance_is_Ok (self : Category) (b : Number) :
  get_balance self = Ok b -> ledger self <> [].
Proof.
  intros H E. rewrite (get_balance_empty _ E) in H. discriminate.
Qed.

(** ** Withdraw *)

Lemma withdraw_unfold (self : Category) (amt : Number) (descr : string) (b : Number) :
  get_balance self = Ok b ->
  withdraw self amt descr =
    (if num_le amt b
     then Ok (true, ledger_append self
                      {| amount := mul amt (PyInt (-1)); description := descr |})
     else Ok (false, self)).
Proof. intros H. unfold withdraw, check_funds. rewrite H. reflexivity. Qed.





(** ** Negative amounts *)

(** C5, as stated, fails: a strictly negative amount does not pass the
    funds check of a category whose balance is lower still. *)
Lemma negative_withdraw_not_always_true :
  ~ (forall (self : Category) (amt : Number) (descr : string),
       (Nval amt < 0)%Q ->
       check_funds self amt = Ok true /\
       exists e, withdraw self amt descr = Ok (true, ledger_append self e) /\
                 (0 < Nval (amount e))%Q).
Proof.
  intros H.
  destruct (H overdrawn (PyInt (-5)) "" ltac:(reflexivity)) as [Hc _].
  vm_compute in Hc. discriminate.
Qed.

(** C5, amended.  On a category whose balance exists and is not
    negative, a strictly negative amount passes the funds check, and
    [withdraw] returns true after appending an entry whose amount
    [-amount] is strictly positive. *)
Theorem withdraw_negative_amount
  (self : Category) (amt : Number) (descr : string) (balance : Number) :
  get_balance self = Ok balance ->
  (0 <= Nval balance)%Q ->
  (Nval amt < 0)%Q ->
  check_funds self amt = Ok true /\
  withdraw self amt descr =
    Ok (true, ledger_append self
                {| amount := mul amt (PyInt (-1)); description := descr |}) /\
  (0 < Nval (mul amt (PyInt (-1))))%Q.
Proof.
  intros Hb Hpos Hneg.
  assert (Hle : num_le amt balance = true) by (apply (proj2 (num_le_spec _ _)); lra).
  split; [unfold check_funds; rewrite Hb; cbn [bind]; rewrite Hle; reflexivity|].
  split; [rewrite (withdraw_unfold _ _ _ _ Hb), Hle; reflexivity|].
  rewrite Nval_negate. lra.
Qed.

Lemma withdraw_negative_amount_witness :
  check_funds food (PyInt (-5)) = Ok true /\
  withdraw food (PyInt (-5)) "refund" =
    Ok (true, ledger_append food
                {| amount := mul (PyInt (-5)) (PyInt (-1)); description := "refund" |}) /\
  (0 < Nval (mul (PyInt (-5)) (PyInt (-1))))%Q.
Proof.
  apply (withdraw_negative_amount food (PyInt (-5)) "refund" (PyInt 1000));
    reflexivity || (vm_compute; discriminate).
Defined.

(** ** Transfer *)



(** The entries a transfer writes to the source and to the target. *)
Lemma transfer_unfold (st : gmap nat Category) (self category : nat) (amt : Number)
  (s c : Category) (b : Number) :
  st !! self = Some s ->
  st !! category = Some c ->
  get_balance s = Ok b ->
  transfer st self category amt =
    (if num_le amt b
     then
       let s' := ledger_append s {| amount := mul amt (PyInt (-1));
                                    description := "Transfer to " +:+ category_name c |} in
       Ok (true,
           <[category := deposit (if decide (self = category) then s' else c) amt
                           ("Transfer from " +:+ category_name s)]>
             (<[self := s']> st))
     else Ok (false, st)).
Proof.
  intros Hs Hc Hb. unfold transfer. rewrite Hs, Hc.
  rewrite (withdraw_unfold _ _ _ _ Hb).
  destruct (num_le amt b); cbn [bind fst snd].
  - rewrite lookup_insert_eq.
    destruct (decide (self = category)) as [->|Hne].
    + rewrite lookup_insert_eq. reflexivity.
    + rewrite lookup_insert_ne by exact Hne. rewrite Hc. reflexivity.
  - rewrite insert_id by exact Hs. reflexivity.
Qed.




(** ** Balance after a successful withdraw or transfer *)






(** ** Strings *)

Lemma append_cons (c : ascii) (s t : string) : String c s +:+ t = String c (s +:+ t).
Proof. reflexivity. Qed.

Lemma append_nil_l (t : string) : "" +:+ t = t.
Proof. reflexivity. Qed.

Lemma append_nil_r (s : string) : s +:+ "" = s.
Proof.
  induction s as [|c s IH]; [reflexivity|].
  rewrite append_cons, IH. reflexivity.
Qed.

Lemma append_assoc (s t u : string) : (s +:+ t) +:+ u = s +:+ (t +:+ u).
Proof.
  induction s as [|c s IH]; [reflexivity|].
  rewrite !append_cons, IH. reflexivity.
Qed.

Lemma length_append (s t : string) :
  String.length (s +:+ t) = (String.length s + String.length t)%nat.
Proof.
  induction s as [|c s IH]; [reflexivity|].
  rewrite append_cons. cbn [String.length]. rewrite IH. reflexivity.
Qed.

Lemma length_replicate_char (n : nat) (c : ascii) :
  String.length (replicate_char n c) = n.
Proof. induction n as [|n IH]; cbn; [reflexivity|]. rewrite IH. reflexivity. Qed.

Lemma len_str_times (c : ascii) (n : Z) : len (str_times c n) = Z.max 0 n.
Proof. unfold len, str_times. rewrite length_replicate_char. lia. Qed.

Lemma str_times_nonpos (c : ascii) (n : Z) : n <= 0 -> str_times c n = "".
Proof.
  intros H. unfold str_times. replace (Z.to_nat n) with O by lia. reflexivity.
Qed.

Lemma len_append (s t : string) : len (s +:+ t) = len s + len t.
Proof. unfold len. rewrite length_append. lia. Qed.

Lemma len_nonneg (s : string) : 0 <= len s.
Proof. unfold len. lia. Qed.


Lemma Qtrunc_half (z : Z) : Qtrunc (inject_Z z / 2) = Z.quot z 2.
Proof. unfold Qtrunc. cbn. rewrite Z.mul_1_r. reflexivity. Qed.

(** ** String rendering *)

Lemma format_header_short (name : string) :
  len name <= 30 ->
  format_header name =
    str_times "*" ((30 - len name) / 2) +:+ name
      +:+ str_times "*" (30 - len name - (30 - len name) / 2) /\
  String.length (format_header name) = 30%nat.
Proof.
  intros Hn. pose proof (len_nonneg name) as H0.
  unfold format_header. rewrite Qtrunc_half.
  rewrite Z.quot_div_nonneg by lia. split; [reflexivity|].
  apply Nat2Z.inj. fold (len (str_times "*" ((30 - len name) / 2) +:+ name
      +:+ str_times "*" (30 - len name - (30 - len name) / 2))).
  rewrite !len_append, !len_str_times. change (Z.of_nat 30) with 30. lia.
Qed.

Lemma format_header_long (name : string) :
  30 < len name -> format_header name = name.
Proof.
  intros Hn. unfold format_header. rewrite Qtrunc_half.
  assert (H1 : Z.quot (30 - len name) 2 <= 0).
  { apply Z.quot_le_upper_bound; lia. }
  assert (H2 : 30 - len name - Z.quot (30 - len name) 2 <= 0).
  { pose proof (Z.quot_opp_l (len name - 30) 2 ltac:(lia)) as Ho.
    replace (- (len name - 30)) with (30 - len name) in Ho by lia.
    rewrite Ho, Z.quot_div_nonneg by lia. lia. }
  rewrite !str_times_nonpos by assumption.
  rewrite append_nil_l, append_nil_r. reflexivity.
Qed.


Lemma format_ledger_entry_overflow (e : Entry) :
  let descr := String.substring 0 23 (description e) in
  let amt := format_2f (amount e) in
  30 < len amt + len descr ->
  format_ledger_entry e = descr +:+ amt.
Proof.
  intros descr amt Hbig. unfold format_ledger_entry. fold descr amt.
  rewrite str_times_nonpos by lia. reflexivity.
Qed.






(** C7.  The total line of the rendering is [Total: ] followed by
    [str(get_balance())], not by the balance formatted to two decimals:
    for the category holding one deposit of 1000 the final line is
    [Total: 1000], where two decimals would give [Total: 1000.00]. *)
Theorem total_line_not_two_decimals (float_repr : Q -> string) :
  get_balance food = Ok (PyInt 1000) /\
  __str__ float_repr food =
    Ok ("*************Food*************" +:+ nl
          +:+ "initial deposit        1000.00" +:+ nl
          +:+ "Total: 1000") /\
  (exists s, __str__ float_repr food = Ok s /\ last_line s = "Total: 1000") /\
  "Total: " +:+ format_2f (PyInt 1000) = "Total: 1000.00".
Proof.
  split; [reflexivity|]. split; [reflexivity|]. split; [|reflexivity].
  eexists. split; reflexivity.
Qed.

(** ** Percentages *)

Lemma Qtrunc_floor (q : Q) : (0 <= q)%Q -> Qtrunc q = Qfloor q.
Proof.
  destruct q as [n d]. unfold Qle, Qtrunc, Qfloor. cbn. intros H.
  apply Z.quot_div_nonneg; lia.
Qed.

Lemma round_down_nearest_ten_spec (value : Z) :
  _round_down_nearest_ten value = 10 * (value / 10).
Proof.
  unfold _round_down_nearest_ten, Qtrunc. cbn.
  rewrite Z.quot_1_r, Z.mul_1_r. lia.
Qed.

Lemma truediv_nonzero (x y : Number) :
  ~ (Nval y == 0)%Q -> truediv x y = Ok (PyFloat (Nval x / Nval y)).
Proof.
  intros H. unfold truediv.
  destruct (Qeq_bool (Nval y) 0) eqn:E; [|reflexivity].
  apply Qeq_bool_iff in E. contradiction.
Qed.


Lemma resolve_percentage_exact (value total : Number) :
  (0 <= Nval value)%Q -> (0 < Nval total)%Q ->
  _resolve_percentage value total =
    Ok (10 * (Qfloor (Nval value / Nval total * 100) / 10)) /\
  0 <= Qfloor (Nval value / Nval total * 100).
Proof.
  intros Hv Ht.
  assert (Hq : (0 <= Nval value / Nval total * 100)%Q).
  { apply Qmult_le_0_compat; [|discriminate].
    apply Qmult_le_0_compat; [exact Hv|].
    apply Qinv_le_0_compat. lra. }
  split.
  - unfold _resolve_percentage.
    rewrite truediv_nonzero by lra. cbn [bind mul Nval int].
    rewrite round_down_nearest_ten_spec, Qtrunc_floor; [reflexivity|exact Hq].
  - rewrite <- (Qfloor_Z 0). apply Qfloor_resp_le. exact Hq.
Qed.



(** ** The exact model against binary64 *)

Lemma in_range (n : nat) (z : Z) : 0 <= z < Z.of_nat n -> In z (range n).
Proof.
  intros H. unfold range. apply in_map_iff. exists (Z.to_nat z).
  split; [lia|]. apply in_seq. lia.
Qed.

(** On every integer from 0 to 1000 the binary64 evaluation of
    [_round_down_nearest_ten] gives what the exact model gives. *)
Lemma round_down_nearest_ten_binary64 (p : Z) :
  0 <= p <= 1000 ->
  B64._round_down_nearest_ten p = _round_down_nearest_ten p.
Proof.
  intros Hp.
  assert (H : forallb (fun p => B64._round_down_nearest_ten p =? _round_down_nearest_ten p)
                      (range 1001) = true) by (vm_compute; reflexivity).
  rewrite forallb_forall in H. apply Z.eqb_eq, H, in_range. lia.
Qed.

(** So does [_resolve_percentage] on integers [0 <= value <= total <=
    50]: where [value / total * 100] falls just below an integer in
    binary64 (29 / 50 * 100 is 57.99999999999999) the rounding down to
    a multiple of ten absorbs the difference. *)
Lemma resolve_percentage_binary64 (value total : Z) :
  1 <= total <= 50 -> 0 <= value <= total ->
  _resolve_percentage (PyInt value) (PyInt total) =
    Ok (B64._resolve_percentage value total).
Proof.
  intros Ht Hv.
  assert (H : forallb
                (fun t => forallb
                   (fun v => match _resolve_percentage (PyInt v) (PyInt (t + 1)) with
                             | Ok r => r =? B64._resolve_percentage v (t + 1)
                             | Raise _ => false
                             end)
                   (range (S (S (Z.to_nat t)))))
                (range 50) = true) by (vm_compute; reflexivity).
  rewrite forallb_forall in H.
  specialize (H (total - 1) ltac:(apply in_range; lia)).
  rewrite forallb_forall in H.
  specialize (H value ltac:(apply in_range; lia)).
  replace (total - 1 + 1) with total in H by lia.
  destruct (_resolve_percentage (PyInt value) (PyInt total)); [|discriminate].
  apply Z.eqb_eq in H. congruence.
Qed.

(** The three instances the specification lists, in binary64. *)
Example resolve_percentage_instances_binary64 :
  B64._resolve_percentage 30 100 = 30 /\
  B64._resolve_percentage 47 100 = 40 /\
  B64._resolve_percentage 0 100 = 0.
Proof. repeat split. Qed.

(** Past 2^53 binary64 no longer holds every integer, and the two part
    ways: at (2^56, 100) the binary64 evaluation returns 2^56 itself,
    the exact model the multiple of ten below it. *)
Example resolve_percentage_beyond_2_53 :
  B64._resolve_percentage (2 ^ 56) 100 = 72057594037927936 /\
  _resolve_percentage (PyInt (2 ^ 56)) (PyInt 100) = Ok 72057594037927930.
Proof. split; vm_compute; reflexivity. Qed.

(** ** Spend chart *)


(** C10.  The category holding a deposit of 1.0 and a successful
    withdraw of 0.5 has a strictly positive withdrawal total, 0.5; the
    combined total truncates to the integer 0, [_resolve_percentage]
    divides by it, and [create_spend_chart] ends in a division by
    zero. *)
Theorem chart_division_by_zero :
  withdraw (deposit (new_category "Food") (PyFloat 1) "") (PyFloat (1 # 2)) ""
    = Ok (true, small_spender) /\
  (Nval (_calculate_category_withdraw small_spender) == 1 # 2)%Q /\
  (0 < Nval (_calculate_category_withdraw small_spender))%Q /\
  int (reduce_init add (map _calculate_category_withdraw [small_spender]) (PyFloat 0)) = 0 /\
  _resolve_percentage (_calculate_category_withdraw small_spender) (PyInt 0)
    = Raise ZeroDivisionError /\
  create_spend_chart [small_spender] = Raise ZeroDivisionError.
Proof. repeat split. Qed.

Lemma map_result_Forall2 {A B : Type} (f : A -> result B) (l : list A) (l' : list B) :
  map_result f l = Ok l' -> Forall2 (fun x y => f x = Ok y) l l'.
Proof.
  revert l'. induction l as [|x xs IH]; cbn [map_result]; intros l' H.
  - injection H as <-. constructor.
  - destruct (f x) as [y|e] eqn:Ex; cbn [bind] in H; [|discriminate].
    destruct (map_result f xs) as [ys|e] eqn:Exs; cbn [bind] in H; [|discriminate].
    injection H as <-. constructor; [exact Ex|]. apply IH. reflexivity.
Qed.

Lemma map_result_length {A B : Type} (f : A -> result B) (l : list A) (l' : list B) :
  map_result f l = Ok l' -> length l' = length l.
Proof.
  intros H. apply map_result_Forall2 in H.
  symmetry. eapply Forall2_length. exact H.
Qed.

Lemma fold_left_max_spec (xs : list Z) (x : Z) :
  (x <= fold_left Z.max xs x /\ Forall (fun v => v <= fold_left Z.max xs x) xs) /\
  (fold_left Z.max xs x = x \/ In (fold_left Z.max xs x) xs).
Proof.
  revert x. induction xs as [|v vs IH]; intros x; cbn [fold_left].
  - split; [split; [lia|constructor]|left; reflexivity].
  - destruct (IH (Z.max x v)) as [[H1 H2] H3]. split; [split|].
    + lia.
    + constructor; [lia|exact H2].
    + destruct H3 as [H3|H3]; [|right; right; exact H3].
      rewrite H3. destruct (Z.max_spec x v) as [[_ ->]|[_ ->]]; [right; left|left]; reflexivity.
Qed.

Lemma chart_row_length (string_list : list (list ascii)) (i : nat)
  (acc : result string) (row : string) :
  fold_left
    (fun acc column =>
       let* row := acc in
       match column !! i with
       | Some c => Ok (row +:+ String c "")
       | None => Raise IndexError
       end)
    string_list acc = Ok row ->
  exists a, acc = Ok a /\
            String.length row = (String.length a + length string_list)%nat.
Proof.
  revert acc. induction string_list as [|col cols IH]; cbn [fold_left]; intros acc H.
  - exists row. split; [exact H|]. cbn. lia.
  - apply IH in H as (a1 & Ha1 & Hl).
    destruct acc as [a0|e]; cbn [bind] in Ha1; [|discriminate].
    destruct (col !! i); [|discriminate].
    injection Ha1 as <-. exists a0. split; [reflexivity|].
    rewrite length_append in Hl. cbn [String.length length] in *. lia.
Qed.

Lemma chart_columns_length (y_length : Z) (categories : list Category)
  (withdraw_percents : list Z) :
  length withdraw_percents = length categories ->
  length (chart_columns y_length categories withdraw_percents)
    = (5 + 3 * length categories)%nat.
Proof.
  intros Hlen. unfold chart_columns.
  assert (G : forall (l : list (Category * Z)) (init : list (list ascii)),
             length (fold_left
                       (fun string_list cp =>
                          string_list ++
                            _format_category_column y_length
                              (category_name (fst cp)) (snd cp)) l init)
             = (length init + 3 * length l)%nat).
  { induction l as [|cp l IH]; intros init; cbn [fold_left].
    - cbn. lia.
    - rewrite IH, length_app. cbn. lia. }
  rewrite G, length_zip, Hlen. cbn. lia.
Qed.

(** C9, as stated, fails: the grid has one row more than [11 +
    y_length]. *)
Lemma chart_height_not_11_plus_name :
  ~ (forall (categories : list Category) (y_length : Z) (rows : list string),
       categories <> [] ->
       chart_grid categories = Ok (y_length, rows) ->
       Z.of_nat (length rows) = 11 + y_length).
Proof.
  intros H.
  pose proof (H [shopper] _ _ ltac:(discriminate) eq_refl) as Hh.
  vm_compute in Hh. discriminate.
Qed.

(** C9, amended.  When [create_spend_chart] succeeds on a non-empty
    collection, the grid it renders between the title line and the
    final trimming has [12 + y_length] rows, [y_length] being the
    length of the longest category name, and every row has [5 + 3 *
    (number of categories)] characters. *)
Theorem chart_grid_dimensions
  (categories : list Category) (y_length : Z) (rows : list string) :
  categories <> [] ->
  chart_grid categories = Ok (y_length, rows) ->
  create_spend_chart categories = Ok (rstrip (chart_text rows) +:+ "  ") /\
  Forall (fun c => len (category_name c) <= y_length) categories /\
  Exists (fun c => len (category_name c) = y_length) categories /\
  Z.of_nat (length rows) = 12 + y_length /\
  Forall (fun row => len row = 5 + 3 * Z.of_nat (length categories)) rows.
Proof.
  intros Hne H.
  split; [unfold create_spend_chart; rewrite H; reflexivity|].
  unfold chart_grid in H.
  destruct categories as [|c cs]; [congruence|]. clear Hne.
  cbn [map reduce bind] in H.
  set (names := map (fun i => len (category_name i)) cs) in H.
  set (y := fold_left Z.max names (len (category_name c))) in H.
  destruct (fold_left_max_spec names (len (category_name c))) as [[Hy1 Hy2] Hy3].
  fold y in Hy1, Hy2, Hy3.
  match type of H with
  | bind ?p _ = _ => destruct p as [pcts|e] eqn:Ep; cbn [bind] in H; [|discriminate]
  end.
  match type of H with
  | bind ?p _ = _ => destruct p as [rs|e] eqn:Er; cbn [bind] in H; [|discriminate]
  end.
  injection H as <- <-.
  apply map_result_length in Ep.
  change (_calculate_category_withdraw c :: map _calculate_category_withdraw cs)
    with (map _calculate_category_withdraw (c :: cs)) in Ep.
  rewrite length_map in Ep.
  split; [|split; [|split]].
  - constructor; [exact Hy1|].
    unfold names in Hy2. rewrite Forall_map in Hy2. exact Hy2.
  - destruct Hy3 as [Hy3|Hy3].
    + apply Exists_cons_hd. symmetry. exact Hy3.
    + apply Exists_cons_tl. unfold names in Hy3. apply in_map_iff in Hy3 as (c0 & Hc0 & Hin).
      apply Exists_exists. exists c0. split; [apply list_elem_of_In; exact Hin|exact Hc0].
  - unfold chart_rows in Er. apply map_result_length in Er.
    rewrite Er, length_seq. pose proof (len_nonneg (category_name c)). lia.
  - unfold chart_rows in Er. apply map_result_Forall2 in Er.
    apply Forall_forall. intros row Hrow.
    apply list_elem_of_lookup in Hrow as (k & Hk).
    destruct (Forall2_lookup_r _ _ _ _ _ Er Hk) as (i & _ & Hi).
    unfold chart_row in Hi. apply chart_row_length in Hi as (a & Ha & Hl).
    injection Ha as <-. rewrite chart_columns_length in Hl by exact Ep.
    unfold len. rewrite Hl. cbn [String.length length]. lia.
Qed.

Lemma chart_grid_dimensions_witness :
  [shopper] <> [] /\
  (exists rows, chart_grid [shopper] = Ok (4, rows) /\
                Z.of_nat (length rows) = 12 + 4 /\
                Forall (fun row => len row = 5 + 3 * Z.of_nat (length [shopper])) rows).
Proof.
  split; [discriminate|]. eexists. split; [reflexivity|].
  apply (chart_grid_dimensions [shopper] 4).
  - discriminate.
  - reflexivity.
Defined.

(** ** The chart never runs out of cells *)


Lemma length_times {A : Type} (x : A) (n : Z) : length (times x n) = Z.to_nat n.
Proof. unfold times. apply length_replicate. Qed.

Lemma Qtrunc_top_fillers (k : Z) : Qtrunc (10 - inject_Z (10 * k) / 10) = 10 - k.
Proof.
  unfold Qtrunc. cbn [Qnum Qden Qminus Qplus Qopp Qdiv Qmult Qinv inject_Z].
  change (Z.pos (1 * (1 * 10))) with 10.
  replace (10 * Z.pos (1 * 10) + - (10 * k * 1) * 1) with ((10 - k) * 10) by lia.
  apply Z.quot_mul. lia.
Qed.

Lemma Qtrunc_o_fillers (k : Z) : Qtrunc (inject_Z (10 * k) / 10 + 1) = k + 1.
Proof.
  unfold Qtrunc. cbn [Qnum Qden Qplus Qdiv Qmult Qinv inject_Z].
  change (Z.pos (1 * 10 * 1)) with 10.
  replace (10 * k * 1 * 1 + 1 * Z.pos (1 * 10)) with ((k + 1) * 10) by lia.
  apply Z.quot_mul. lia.
Qed.

Lemma length_chars (s : string) : length (chars s) = String.length s.
Proof.
  unfold chars. induction s as [|c s IH]; cbn; [reflexivity|]. rewrite IH. reflexivity.
Qed.







(** * Further properties *)

(** ** Deposits *)





(** ** Funds check *)





(** ** Ledgers only grow *)

Lemma transfer_inv (st : gmap nat Category) (self category : nat) (amt : Number)
  (ok : bool) (st' : gmap nat Category) :
  transfer st self category amt = Ok (ok, st') ->
  exists s c b,
    st !! self = Some s /\
    st !! category = Some c /\
    get_balance s = Ok b /\
    ok = num_le amt b /\
    let s' := ledger_append s {| amount := mul amt (PyInt (-1));
                                 description := "Transfer to " +:+ category_name c |} in
    st' = if ok
          then <[category := deposit (if decide (self = category) then s' else c) amt
                               ("Transfer from " +:+ category_name s)]>
                 (<[self := s']> st)
          else st.
Proof.
  intros H.
  destruct (st !! self) as [s|] eqn:Hs;
    [|unfold transfer in H; rewrite Hs in H; discriminate].
  destruct (st !! category) as [c|] eqn:Hc;
    [|unfold transfer in H; rewrite Hs, Hc in H; discriminate].
  destruct (get_balance s) as [b|e] eqn:Hb.
  - rewrite (transfer_unfold _ _ _ _ _ _ _ Hs Hc Hb) in H.
    exists s, c, b. destruct (num_le amt b); cbn zeta in H; injection H as <- <-; auto.
  - unfold transfer in H. rewrite Hs, Hc in H.
    unfold withdraw, check_funds in H. rewrite Hb in H. discriminate.
Qed.

(** X4.  No call removes or rewrites a ledger entry or renames a
    category.  After [withdraw], and for every object of the store
    after [transfer], whatever they return, the name is the same and
    the earlier ledger is a prefix of the new one; [transfer] neither
    creates nor deletes an object. *)
Theorem ledgers_append_only :
  (forall (self : Category) (amt : Number) (descr : string) (ok : bool) (c' : Category),
     withdraw self amt descr = Ok (ok, c') ->
     category_name c' = category_name self /\ ledger self `prefix_of` ledger c') /\
  (forall (st : gmap nat Category) (self category : nat) (amt : Number)
          (ok : bool) (st' : gmap nat Category),
     transfer st self category amt = Ok (ok, st') ->
     forall r : nat,
       match st !! r with
       | Some c => exists c', st' !! r = Some c' /\
                              category_name c' = category_name c /\
                              ledger c `prefix_of` ledger c'
       | None => st' !! r = None
       end).
Proof.
  split.
  - intros self amt descr ok c' H.
    destruct (get_balance self) as [b|e] eqn:Hb.
    + rewrite (withdraw_unfold _ _ _ _ Hb) in H.
      destruct (num_le amt b); injection H as <- <-.
      * split; [reflexivity|]. cbn [ledger_append ledger]. apply prefix_app_r. reflexivity.
      * split; reflexivity.
    + unfold withdraw, check_funds in H. rewrite Hb in H. discriminate.
  - intros st self category amt ok st' H r.
    destruct (transfer_inv _ _ _ _ _ _ H) as (s & c & b & Hs & Hc & Hb & -> & ->).
    cbn zeta. destruct (num_le amt b).
    2:{ destruct (st !! r) as [c0|]; [|reflexivity].
        exists c0. split; [reflexivity|]. split; reflexivity. }
    destruct (decide (r = category)) as [->|Hrc].
    + rewrite Hc, lookup_insert_eq. eexists. split; [reflexivity|].
      destruct (decide (self = category)) as [->|Hd].
      * assert (c = s) as -> by congruence.
        split; [reflexivity|]. cbn [deposit ledger_append ledger].
        rewrite <- app_assoc. apply prefix_app_r. reflexivity.
      * split; [reflexivity|]. cbn [deposit ledger_append ledger].
        apply prefix_app_r. reflexivity.
    + rewrite lookup_insert_ne by congruence.
      destruct (decide (r = self)) as [->|Hrs].
      * rewrite Hs, lookup_insert_eq. eexists. split; [reflexivity|].
        split; [reflexivity|]. cbn [ledger_append ledger]. apply prefix_app_r. reflexivity.
      * rewrite lookup_insert_ne by congruence.
        destruct (st !! r) as [c0|]; [|reflexivity].
        exists c0. split; [reflexivity|]. split; reflexivity.
Qed.

Lemma ledgers_append_only_witness :
  (category_name shopper = category_name food /\ ledger food `prefix_of` ledger shopper) /\
  (exists c', <[1%nat := deposit (new_category "Clothing") (PyInt 50) "Transfer from Food"]>
                (<[0%nat := ledger_append food {| amount := PyInt (-50);
                                                  description := "Transfer to Clothing" |}]>
                   two_categories) !! 1%nat = Some c' /\
              category_name c' = "Clothing" /\
              [] `prefix_of` ledger c').
Proof.
  split.
  - apply (proj1 ledgers_append_only food (PyInt 200) "groceries" true shopper).
    reflexivity.
  - apply (proj2 ledgers_append_only two_categories 0%nat 1%nat (PyInt 50) true _
             eq_refl 1%nat).
Defined.

(** X5.  A transfer out of a category that has no entry yet raises
    [TypeError], whatever the amount and the target: the funds check
    reads the balance of an empty ledger. *)
Theorem transfer_from_empty_ledger
  (st : gmap nat Category) (self category : nat) (amt : Number) (s c : Category) :
  st !! self = Some s ->
  st !! category = Some c ->
  ledger s = [] ->
  transfer st self category amt = Raise TypeError.
Proof.
  intros Hs Hc He. unfold transfer. rewrite Hs, Hc.
  unfold withdraw, check_funds. rewrite (get_balance_empty s He). reflexivity.
Qed.

Lemma transfer_from_empty_ledger_witness :
  two_categories !! 1%nat = Some (new_category "Clothing") /\
  two_categories !! 0%nat = Some food /\
  ledger (new_category "Clothing") = [] /\
  transfer two_categories 1 0 (PyInt 0) = Raise TypeError.
Proof.
  split; [reflexivity|]. split; [reflexivity|]. split; [reflexivity|].
  apply (transfer_from_empty_ledger two_categories 1 0 (PyInt 0)
           (new_category "Clothing") food); reflexivity.
Defined.



(** ** Withdrawal totals *)






(** ** Rendering: failure, widths, lines *)



(** X10.  Nothing is ever cut to fit the 30 columns except the
    description.  The header is [max(30, len(name))] wide, and a name
    longer than 30 is printed bare; a ledger line is [max(30,
    len(amount) + len(description[:23]))] wide and always ends with the
    whole amount string, which follows the description directly when
    the two do not fit. *)
Theorem rendered_widths :
  (forall name : string,
     len (format_header name) = Z.max 30 (len name) /\
     (30 < len name -> format_header name = name)) /\
  (forall e : Entry,
     let descr := String.substring 0 23 (description e) in
     let amt := format_2f (amount e) in
     len (format_ledger_entry e) = Z.max 30 (len amt + len descr) /\
     (exists before, format_ledger_entry e = before +:+ amt) /\
     (30 < len amt + len descr -> format_ledger_entry e = descr +:+ amt)).
Proof.
  split.
  - intros name. split; [|apply format_header_long].
    destruct (Z_le_gt_dec (len name) 30) as [Hs|Hl].
    + destruct (format_header_short name Hs) as [_ H].
      unfold len at 1. rewrite H. change (Z.of_nat 30) with 30. lia.
    + rewrite format_header_long by lia. lia.
  - intros e descr amt. split; [|split].
    + unfold format_ledger_entry. fold descr amt.
      rewrite !len_append, len_str_times.
      pose proof (len_nonneg amt). pose proof (len_nonneg descr). lia.
    + exists (descr +:+ str_times " " (30 - len amt - len descr)).
      unfold format_ledger_entry. fold descr amt. rewrite append_assoc. reflexivity.
    + apply format_ledger_entry_overflow.
Qed.

Lemma rendered_widths_witness :
  format_header (category_name wide) = category_name wide /\
  (forall e, In e (ledger wide) ->
             format_ledger_entry e
               = String.substring 0 23 (description e) +:+ format_2f (amount e)).
Proof.
  destruct rendered_widths as [Hh He]. split.
  - apply (Hh (category_name wide)). reflexivity.
  - intros e [<-|[]]. apply (He _). reflexivity.
Defined.















(** ** Spend chart: outcomes *)







(** ** Spend chart: percentages *)









Lemma chart_grid_percents (categories : list Category) (y_length : Z) (rows : list string) :
  chart_grid categories = Ok (y_length, rows) ->
  exists pcts,
    withdraw_percents categories = Ok pcts /\
    chart_rows (chart_columns y_length categories pcts) y_length = Ok rows.
Proof.
  unfold chart_grid, withdraw_percents, total_withdraw. intros H.
  destruct (reduce Z.max (map (fun i => len (category_name i)) categories)) as [y|e];
    cbn [bind] in H; [|discriminate].
  match type of H with
  | bind ?p _ = _ => destruct p as [pcts|e]; cbn [bind] in H; [|discriminate]
  end.
  match type of H with
  | bind ?p _ = _ => destruct p as [rs|e] eqn:Er; cbn [bind] in H; [|discriminate]
  end.
  injection H as <- <-. exists pcts. split; [reflexivity|exact Er].
Qed.



(** A single category reaches 190: [deposit(2.0)], [withdraw(1.9)] has a
    withdrawal total of 1.9 against a truncated combined total of 1. *)
Example chart_percentage_can_reach_190 :
  withdraw_percents
    [ledger_append (deposit (new_category "Food") (PyFloat 2) "")
                   {| amount := mul (PyFloat (19 # 10)) (PyInt (-1)); description := "" |}]
    = Ok [190].
Proof. reflexivity. Qed.

(** ** Spend chart: cells *)

Lemma chars_append (s t : string) : chars (s +:+ t) = chars s ++ chars t.
Proof.
  unfold chars. induction s as [|c s IH]; [reflexivity|].
  rewrite append_cons. cbn [list_ascii_of_string app]. rewrite IH. reflexivity.
Qed.

Lemma chart_row_cells (string_list : list (list ascii)) (i : nat)
  (acc : result string) (row : string) :
  fold_left
    (fun acc column =>
       let* row := acc in
       match column !! i with
       | Some c => Ok (row +:+ String c "")
       | None => Raise IndexError
       end)
    string_list acc = Ok row ->
  exists a cells,
    acc = Ok a /\
    chars row = chars a ++ cells /\
    Forall2 (fun column c => column !! i = Some c) string_list cells.
Proof.
  revert acc. induction string_list as [|col cols IH]; cbn [fold_left]; intros acc H.
  - exists row, []. split; [exact H|]. split; [rewrite app_nil_r; reflexivity|constructor].
  - apply IH in H as (a1 & cells & Ha1 & Hrow & Hcells).
    destruct acc as [a0|e]; cbn [bind] in Ha1; [|discriminate].
    destruct (col !! i) as [c|] eqn:Hc; [|discriminate].
    injection Ha1 as <-. exists a0, (c :: cells). split; [reflexivity|]. split.
    + rewrite Hrow, chars_append, <- app_assoc. reflexivity.
    + constructor; assumption.
Qed.

Lemma chart_rows_lookup (string_list : list (list ascii)) (y_length : Z)
  (rows : list string) (i : nat) (row : string) :
  chart_rows string_list y_length = Ok rows ->
  rows !! i = Some row ->
  (i < Z.to_nat (y_length + 12))%nat /\ chart_row string_list i = Ok row.
Proof.
  unfold chart_rows. intros H Hi. apply map_result_Forall2 in H.
  destruct (Forall2_lookup_r _ _ _ _ _ H Hi) as (k & Hk & Hrow).
  apply lookup_seq in Hk as [-> Hlt]. split; [exact Hlt|exact Hrow].
Qed.

(** X15.  The chart text is the column list read row by row: in every
    row [i] that [create_spend_chart] emits, the character at position
    [j] is cell [i] of column [j], for every column of the 2D list. *)
Theorem chart_rows_transpose_columns
  (categories : list Category) (y_length : Z) (rows : list string) :
  chart_grid categories = Ok (y_length, rows) ->
  exists pcts,
    withdraw_percents categories = Ok pcts /\
    forall (i : nat) (row : string),
      rows !! i = Some row ->
      Forall2 (fun column c => column !! i = Some c)
              (chart_columns y_length categories pcts) (chars row) /\
      forall (j : nat) (column : list ascii),
        chart_columns y_length categories pcts !! j = Some column ->
        chars row !! j = column !! i.
Proof.
  intros H. destruct (chart_grid_percents _ _ _ H) as (pcts & Hp & Hrows).
  exists pcts. split; [exact Hp|]. intros i row Hi.
  destruct (chart_rows_lookup _ _ _ _ _ Hrows Hi) as [_ Hrow].
  unfold chart_row in Hrow.
  apply chart_row_cells in Hrow as (a & cells & Ha & Hc & Hcells).
  injection Ha as <-. cbn [chars list_ascii_of_string app] in Hc. rewrite Hc.
  split; [exact Hcells|]. intros j column Hj.
  destruct (Forall2_lookup_l _ _ _ _ _ Hcells Hj) as (c & Hc1 & Hc2).
  rewrite Hc1, Hc2. reflexivity.
Qed.

Lemma chart_rows_transpose_columns_witness :
  exists pcts,
    withdraw_percents [shopper] = Ok pcts /\
    forall (i : nat) (row : string),
      ["100| o  "; " 90| o  "; " 80| o  "; " 70| o  "; " 60| o  "; " 50| o  ";
       " 40| o  "; " 30| o  "; " 20| o  "; " 10| o  "; "  0| o  "; "    ----";
       "     F  "; "     o  "; "     o  "; "     d  "] !! i = Some row ->
      Forall2 (fun column c => column !! i = Some c)
              (chart_columns 4 [shopper] pcts) (chars row) /\
      forall (j : nat) (column : list ascii),
        chart_columns 4 [shopper] pcts !! j = Some column ->
        chars row !! j = column !! i.
Proof.
  apply (chart_rows_transpose_columns [shopper] 4). reflexivity.
Defined.

Lemma lookup_times {A : Type} (x : A) (n : Z) (i : nat) :
  (i < Z.to_nat n)%nat -> times x n !! i = Some x.
Proof. intros H. unfold times. apply lookup_replicate_2. exact H. Qed.

Lemma category_column_unfold (y_length : Z) (name : string) (k : Z) :
  _format_category_column y_length name (10 * k)
    = (times " "%char (10 - k) ++ times "o"%char (k + 1) ++ ["-"%char]
         ++ chars name ++ times " "%char (y_length - len name))
        :: _format_blank_columm y_length ++ _format_blank_columm y_length.
Proof.
  unfold _format_category_column. rewrite Qtrunc_top_fillers, Qtrunc_o_fillers. reflexivity.
Qed.

(** X16.  The column of a category at [10 * k] percent.  For [k] from
    0 to 10 it is exactly as tall as the grid: [10 - k] blanks, then
    [k + 1] cells [o] ending on the 0% row, the baseline [-] on row 11,
    the name written downwards and blanks up to the longest name.
    Past 100 percent nothing is capped: the bar has [k + 1] cells from
    row 0, so row 11 holds an [o] and the baseline sits on row [k + 1],
    and the column is [k - 10] cells taller than the grid.  Two blank
    columns follow in either case. *)
Theorem category_column_cells (y_length : Z) (name : string) (k : Z) :
  0 <= k -> len name <= y_length ->
  exists column,
    _format_category_column y_length name (10 * k)
      = column :: _format_blank_columm y_length ++ _format_blank_columm y_length /\
    Z.of_nat (length column) = 12 + y_length + Z.max 0 (k - 10) /\
    (k <= 10 ->
     (forall i : nat, Z.of_nat i < 10 - k -> column !! i = Some " "%char) /\
     (forall i : nat, 10 - k <= Z.of_nat i <= 10 -> column !! i = Some "o"%char) /\
     column !! 11%nat = Some "-"%char /\
     (forall i : nat,
        column !! (12 + i)%nat
          = (chars name ++ times " "%char (y_length - len name)) !! i)) /\
    (10 < k ->
     (forall i : nat, Z.of_nat i <= k -> column !! i = Some "o"%char) /\
     column !! Z.to_nat (k + 1) = Some "-"%char).
Proof.
  intros Hk Hn. pose proof (len_nonneg name) as H0.
  eexists. split; [apply category_column_unfold|].
  set (top := times " "%char (10 - k)).
  set (bar := times "o"%char (k + 1)).
  set (rest := chars name ++ times " "%char (y_length - len name)).
  assert (Ltop : length top = Z.to_nat (10 - k)) by apply length_times.
  assert (Lbar : length bar = Z.to_nat (k + 1)) by apply length_times.
  assert (Lrest : Z.of_nat (length rest) = y_length).
  { unfold rest. rewrite length_app, length_times, length_chars. unfold len in *. lia. }
  split; [|split].
  - rewrite !length_app. cbn [length]. fold rest. lia.
  - intros Hk10. split; [|split; [|split]].
    + intros i Hi. rewrite lookup_app_l by lia. apply lookup_times. lia.
    + intros i Hi. rewrite lookup_app_r by lia. rewrite lookup_app_l by lia.
      apply lookup_times. lia.
    + rewrite lookup_app_r by lia. rewrite lookup_app_r by lia.
      replace (11 - length top - length bar)%nat with 0%nat by lia. reflexivity.
    + intros i. rewrite lookup_app_r by lia. rewrite lookup_app_r by lia.
      replace (12 + i - length top - length bar)%nat with (S i) by lia. reflexivity.
  - intros Hk10. split.
    + intros i Hi. rewrite lookup_app_r by lia. rewrite lookup_app_l by lia.
      apply lookup_times. lia.
    + rewrite lookup_app_r by lia. rewrite lookup_app_r by lia.
      replace (Z.to_nat (k + 1) - length top - length bar)%nat with 0%nat by lia.
      reflexivity.
Qed.

Lemma category_column_cells_witness :
  exists column,
    _format_category_column 8 "Food" (10 * 9)
      = column :: _format_blank_columm 8 ++ _format_blank_columm 8 /\
    Z.of_nat (length column) = 12 + 8 + Z.max 0 (9 - 10) /\
    column !! 11%nat = Some "-"%char.
Proof.
  destruct (category_column_cells 8 "Food" 9) as (column & H1 & H2 & H3 & _).
  - lia.
  - vm_compute. discriminate.
  - exists column. split; [exact H1|]. split; [exact H2|].
    apply H3. lia.
Defined.

Lemma chart_columns_unfold (y_length : Z) (categories : list Category)
  (withdraw_percents : list Z) :
  chart_columns y_length categories withdraw_percents
    = (_format_y_labels y_length ++ _format_blank_columm y_length)
        ++ List.concat
             (map (fun cp => _format_category_column y_length
                               (category_name (fst cp)) (snd cp))
                  (zip categories withdraw_percents)).
Proof.
  unfold chart_columns.
  generalize (_format_y_labels y_length ++ _format_blank_columm y_length) as init.
  induction (zip categories withdraw_percents) as [|cp l IH]; intros init;
    cbn [fold_left map List.concat].
  - rewrite app_nil_r. reflexivity.
  - rewrite IH, <- app_assoc. reflexivity.
Qed.


Ltac read_cells :=
  repeat match goal with
         | H : replicate _ _ !! _ = Some _ |- _ => apply lookup_replicate_1 in H as [-> _]
         | H : Some _ = Some _ |- _ => injection H as <-
         end.

Lemma label_cells (y_length : Z) (i : nat) (c0 c1 c2 c3 c4 : ascii) :
  (["1"%char] ++ times " "%char (11 + y_length)) !! i = Some c0 ->
  (["0"; "9"; "8"; "7"; "6"; "5"; "4"; "3"; "2"; "1"; " "; " "]%char
     ++ times " "%char y_length) !! i = Some c1 ->
  (times "0"%char 11 ++ times " "%char (1 + y_length)) !! i = Some c2 ->
  (times "|"%char 11 ++ times " "%char (1 + y_length)) !! i = Some c3 ->
  (times " "%char 11 ++ ["-"%char] ++ times " "%char y_length) !! i = Some c4 ->
  [c0; c1; c2; c3; c4] = chars (axis_label i).
Proof.
  unfold times. change (Z.to_nat 11) with 11%nat. cbn [replicate app].
  intros H0 H1 H2 H3 H4.
  do 12 (destruct i as [|i];
         [cbn [lookup list_lookup] in H0, H1, H2, H3, H4; read_cells; reflexivity|]).
  cbn [lookup list_lookup] in H0, H1, H2, H3, H4. read_cells.
  destruct i; reflexivity.
Qed.

(** X17.  The left margin of every chart.  Whatever the categories,
    each emitted row starts with the same five characters: the
    right-aligned labels 100 down to 0 followed by [|] and a blank on
    the eleven bar rows, four blanks and the first [-] of the baseline
    on row 11, and five blanks on the name rows. *)
Theorem chart_axis
  (categories : list Category) (y_length : Z) (rows : list string) :
  chart_grid categories = Ok (y_length, rows) ->
  forall (i : nat) (row : string),
    rows !! i = Some row ->
    take 5 (chars row) = chars (axis_label i).
Proof.
  intros H i row Hi.
  destruct (chart_grid_percents _ _ _ H) as (pcts & _ & Hrows).
  destruct (chart_rows_lookup _ _ _ _ _ Hrows Hi) as [_ Hrow].
  unfold chart_row in Hrow.
  apply chart_row_cells in Hrow as (a & cells & Ha & Hc & Hcells).
  injection Ha as <-. cbn [chars list_ascii_of_string app] in Hc. rewrite Hc.
  rewrite chart_columns_unfold in Hcells.
  apply Forall2_app_inv_l in Hcells as (margin & others & Hm & _ & ->).
  unfold _format_y_labels, _format_blank_columm in Hm. cbn [app] in Hm.
  inversion Hm as [|? c0 ? ? H0 Hm1]; subst.
  inversion Hm1 as [|? c1 ? ? H1 Hm2]; subst.
  inversion Hm2 as [|? c2 ? ? H2 Hm3]; subst.
  inversion Hm3 as [|? c3 ? ? H3 Hm4]; subst.
  inversion Hm4 as [|? c4 ? ? H4 Hm5]; subst.
  inversion Hm5; subst. cbn [app take].
  apply (label_cells y_length i); assumption.
Qed.

Lemma chart_axis_witness :
  chart_grid [shopper]
    = Ok (4, ["100| o  "; " 90| o  "; " 80| o  "; " 70| o  "; " 60| o  "; " 50| o  ";
              " 40| o  "; " 30| o  "; " 20| o  "; " 10| o  "; "  0| o  "; "    ----";
              "     F  "; "     o  "; "     o  "; "     d  "]) /\
  take 5 (chars " 70| o  ") = chars (axis_label 3).
Proof.
  split; [reflexivity|].
  apply (chart_axis [shopper] 4 _ eq_refl 3%nat " 70| o  "). reflexivity.
Defined.








(** ** Spend chart: the final text *)

Lemma rstrip_split (s : string) :
  exists w, s = rstrip s +:+ w /\ all_space w = true.
Proof.
  induction s as [|c s (w & Hs & Hw)]; cbn [rstrip].
  - exists "". split; reflexivity.
  - destruct (rstrip s) as [|c' r] eqn:E.
    + destruct (is_space c) eqn:Ec.
      * exists (String c w). rewrite append_nil_l in *. split; [congruence|].
        cbn [all_space]. rewrite Ec, Hw. reflexivity.
      * exists w. rewrite append_cons. rewrite <- Hs. split; [reflexivity|exact Hw].
    + exists w. rewrite append_cons, <- Hs. split; [reflexivity|exact Hw].
Qed.

Lemma rstrip_idempotent (s : string) : rstrip (rstrip s) = rstrip s.
Proof.
  induction s as [|c s IH]; cbn [rstrip]; [reflexivity|].
  destruct (rstrip s) as [|c' r] eqn:E.
  - destruct (is_space c) eqn:Ec; cbn [rstrip]; [reflexivity|]. rewrite Ec. reflexivity.
  - cbn [rstrip] in IH |- *. cbn [rstrip]. rewrite IH. reflexivity.
Qed.

Lemma rstrip_keeps (s t : string) (c : ascii) :
  is_space c = false ->
  exists r, rstrip (s +:+ String c t) = s +:+ String c r.
Proof.
  intros Hc. induction s as [|a s (r & IH)].
  - rewrite append_nil_l. cbn [rstrip].
    destruct (rstrip t) as [|c' r'].
    + rewrite Hc. exists "". reflexivity.
    + eexists. reflexivity.
  - exists r. rewrite !append_cons. cbn [rstrip]. rewrite IH.
    destruct s; reflexivity.
Qed.

Lemma chart_text_unfold (rows : list string) :
  exists rest, chart_text rows = chart_title +:+ rest.
Proof.
  unfold chart_text. generalize chart_title as init.
  induction rows as [|row rows IH]; intros init; cbn [fold_left].
  - exists "". rewrite append_nil_r. reflexivity.
  - destruct (IH (init +:+ row +:+ nl)) as [rest Hrest].
    exists (row +:+ nl +:+ rest). rewrite Hrest, !append_assoc. reflexivity.
Qed.

(** X19.  The shape of the returned chart.  It starts with the title
    [Percentage spent by category] and ends with exactly the two blanks
    appended last; between them is the text of the rows, each followed
    by a line feed, from which only trailing whitespace was removed. *)
Theorem chart_text_frame (categories : list Category) (s : string) :
  create_spend_chart categories = Ok s ->
  exists y_length rows body w,
    chart_grid categories = Ok (y_length, rows) /\
    s = "Percentage spent by category" +:+ body +:+ "  " /\
    chart_text rows = "Percentage spent by category" +:+ body +:+ w /\
    all_space w = true /\
    rstrip ("Percentage spent by category" +:+ body)
      = "Percentage spent by category" +:+ body.
Proof.
  unfold create_spend_chart. intros H.
  destruct (chart_grid categories) as [[y rows]|e]; cbn [bind snd] in H; [|discriminate].
  injection H as <-. exists y, rows.
  destruct (chart_text_unfold rows) as [rest Hrest].
  destruct (rstrip_keeps "Percentage spent by categor" (nl +:+ rest) "y" eq_refl)
    as [body Hbody].
  destruct (rstrip_split (chart_text rows)) as (w & Hsplit & Hw).
  assert (Hr : rstrip (chart_text rows) = "Percentage spent by category" +:+ body).
  { rewrite Hrest. exact Hbody. }
  exists body, w. split; [reflexivity|]. split.
  - rewrite Hr, append_assoc. reflexivity.
  - split; [|split; [exact Hw|]].
    + rewrite Hsplit at 1. rewrite Hr, append_assoc. reflexivity.
    + rewrite <- Hr. apply rstrip_idempotent.
Qed.

Lemma chart_text_frame_witness :
  exists y_length rows body w,
    chart_grid [shopper] = Ok (y_length, rows) /\
    "Percentage spent by category" +:+ nl
      +:+ "100| o  " +:+ nl +:+ " 90| o  " +:+ nl +:+ " 80| o  " +:+ nl
      +:+ " 70| o  " +:+ nl +:+ " 60| o  " +:+ nl +:+ " 50| o  " +:+ nl
      +:+ " 40| o  " +:+ nl +:+ " 30| o  " +:+ nl +:+ " 20| o  " +:+ nl
      +:+ " 10| o  " +:+ nl +:+ "  0| o  " +:+ nl +:+ "    ----" +:+ nl
      +:+ "     F  " +:+ nl +:+ "     o  " +:+ nl +:+ "     o  " +:+ nl
      +:+ "     d" +:+ "  "
      = "Percentage spent by category" +:+ body +:+ "  " /\
    chart_text rows = "Percentage spent by category" +:+ body +:+ w /\
    all_space w = true /\
    rstrip ("Percentage spent by category" +:+ body)
      = "Percentage spent by category" +:+ body.
Proof.
  apply (chart_text_frame [shopper]). reflexivity.
Defined.

(** ** Percentages: rounding *)

(** X20.  In binary64, for every integer from 0 to 1000,
    [_round_down_nearest_ten] returns the largest multiple of 10 that
    is at most its argument: multiplying by the double 0.1, flooring
    and dividing by 0.1 loses nothing on that range. *)
Theorem round_down_nearest_ten_in_binary64 (p : Z) :
  0 <= p <= 1000 ->
  B64._round_down_nearest_ten p = 10 * (p / 10) /\
  B64._round_down_nearest_ten p mod 10 = 0 /\
  B64._round_down_nearest_ten p <= p < B64._round_down_nearest_ten p + 10.
Proof.
  intros Hp. rewrite (round_down_nearest_ten_binary64 p Hp), round_down_nearest_ten_spec.
  split; [reflexivity|]. split; lia.
Qed.

Lemma round_down_nearest_ten_in_binary64_witness :
  B64._round_down_nearest_ten 47 = 10 * (47 / 10) /\
  B64._round_down_nearest_ten 47 mod 10 = 0 /\
  B64._round_down_nearest_ten 47 <= 47 < B64._round_down_nearest_ten 47 + 10.
Proof. apply (round_down_nearest_ten_in_binary64 47). lia. Defined.

Lemma Qfloor_percentage (value total : Z) :
  0 < total ->
  Qfloor (Nval (PyInt value) / Nval (PyInt total) * 100) = 100 * value / total.
Proof.
  intros Ht. destruct total as [|t|t]; try lia.
  cbn [Nval]. unfold Qfloor, Qdiv, Qmult, Qinv, inject_Z. cbn [Qnum Qden].
  rewrite Pos.mul_1_l, Pos.mul_1_r. f_equal. lia.
Qed.

(** X21.  In binary64, for integers [0 <= value <= total <= 50],
    [_resolve_percentage] returns the integer percentage [100 * value
    // total] rounded down to a multiple of 10, although [value / total
    * 100] itself can fall just below that integer. *)
Theorem resolve_percentage_in_binary64 (value total : Z) :
  1 <= total <= 50 -> 0 <= value <= total ->
  B64._resolve_percentage value total = 10 * (100 * value / total / 10).
Proof.
  intros Ht Hv.
  pose proof (resolve_percentage_binary64 value total Ht Hv) as Hb.
  destruct (resolve_percentage_exact (PyInt value) (PyInt total)) as [He _].
  - cbn [Nval]. change 0%Q with (inject_Z 0). rewrite <- Zle_Qle. lia.
  - cbn [Nval]. change 0%Q with (inject_Z 0). rewrite <- Zlt_Qlt. lia.
  - rewrite Qfloor_percentage in He by lia. rewrite He in Hb.
    injection Hb as Hb. symmetry. exact Hb.
Qed.

Lemma resolve_percentage_in_binary64_witness :
  B64._resolve_percentage 29 50 = 10 * (100 * 29 / 50 / 10).
Proof. apply (resolve_percentage_in_binary64 29 50); lia. Defined.



(** ** Transfers in the chart *)


